(** * The TODO REST handlers of [src/app.ts], embedded in Rocq

    The repository is four Fastify route handlers, registered by
    [createApp] in [src/app.ts] and, word for word the same, by the
    single-file server that preceded it.  Each one acquires a client from
    [fastify.pg], sends one parameterised SQL statement, shapes the result
    into a reply and releases the client in a [finally] block.

    The embedding follows that structure:
    - [JsVal] holds the JavaScript values that cross the handlers (request
      bodies, statement parameters, rows, reply payloads);
    - the pool and the client are an interface, [Pool], over an arbitrary
      world type, as they are an injected dependency in the source;
    - a handler is a computation in [M], a state-and-exception monad that
      carries the world, the record of calls made on the collaborators and
      the reply's status code;
    - [Mock] is the scripted client of the test helpers and [Pg] is a
      relational store written from the collaborator contract. *)

From Stdlib Require Import List ZArith String Bool Lia Arith.
From Stdlib Require Import Permutation Sorted.
Import ListNotations.

Local Open Scope string_scope.
Local Open Scope Z_scope.

(** ** JavaScript values *)

(** JSON-shaped values.  Numbers that occur here (ids, row counts, status
    codes) are integers.  An object is its list of own properties. *)
#[warnings="-register-all"]
Inductive JsVal : Type :=
| VUndefined
| VNull
| VBool (b : bool)
| VNum (n : Z)
| VStr (s : string)
| VArr (items : list JsVal)
| VObj (fields : list (string * JsVal)).

(** A thrown value: an [Error] with its [name] and [message]. *)
Record Err : Type := MkErr { err_name : string; err_message : string }.

(** How an evaluation completes: normally with a value, or by a throw. *)
Inductive Completion (A : Type) : Type :=
| Normal (a : A)
| Throw (e : Err).
Arguments Normal {A} a.
Arguments Throw {A} e.

Definition TypeError (message : string) : Err := MkErr "TypeError" message.

(** Own-property lookup in an object literal or a parsed JSON object. *)
Fixpoint lookup (k : string) (fields : list (string * JsVal)) : JsVal :=
  match fields with
  | [] => VUndefined
  | (k', v) :: rest => if String.eqb k k' then v else lookup k rest
  end.

(** [const { k } = v]: destructuring throws on [undefined] and [null],
    reads the property of an object, and finds nothing on the other
    values for the property names the handlers use ([title],
    [completed]). *)
Definition destructure (v : JsVal) (k : string) : Completion JsVal :=
  match v with
  | VUndefined | VNull =>
      Throw (TypeError "Cannot destructure property of undefined or null")
  | VObj fields => Normal (lookup k fields)
  | _ => Normal VUndefined
  end.

(** [v === n] for a number literal [n]: strict equality never coerces. *)
Definition strict_eq_number (v : JsVal) (n : Z) : bool :=
  match v with
  | VNum m => Z.eqb m n
  | _ => false
  end.

(** ** The collaborators: pool and client *)

(** A handle on a pooled client. *)
Definition Client : Type := nat.

(** The result object of [client.query]: [rows] is typed [any[]] and
    [rowCount] is typed [number | null]; [rowCount] is only ever compared
    with [===], so it is kept as a value of any shape. *)
Record QueryResult : Type := MkResult {
  rows : list JsVal;
  rowCount : JsVal
}.

(** [fastify.pg.connect()], [client.query(text, values)] and
    [client.release()] over a world [W].  The first two are promises and
    may reject; [release] is synchronous and returns [void]. *)
Class Pool (W : Type) : Type := {
  connect : W -> Completion Client * W;
  query : Client -> string -> option (list JsVal) -> W -> Completion QueryResult * W;
  release : Client -> W -> W
}.

(** One entry per call made on the collaborators, with what it gave back,
    in the order the calls were made. *)
Inductive Call : Type :=
| CConnect (result : Completion Client)
| CQuery (client : Client) (text : string) (values : option (list JsVal))
         (result : Completion QueryResult)
| CRelease (client : Client).

(** ** Requests *)

Record Params : Type := MkParams { id : string }.

(** What a handler reads of a request: the route parameters and the
    parsed body ([undefined] when the request has none). *)
Record Request : Type := MkRequest {
  params : Params;
  body : JsVal
}.

(** ** The handler monad *)

Section Handlers.

Context {W : Type} `{Pool W}.

Record HState : Type := MkHState {
  world : W;
  calls : list Call;
  statusCode : Z
}.

Definition M (A : Type) : Type := HState -> Completion A * HState.

Definition ret {A} (a : A) : M A := fun s => (Normal a, s).

Definition bind {A B} (m : M A) (k : A -> M B) : M B :=
  fun s =>
    match m s with
    | (Normal a, s') => k a s'
    | (Throw e, s') => (Throw e, s')
    end.

Definition lift {A} (c : Completion A) : M A := fun s => (c, s).

(** [try { body } finally { fin }]: [fin] runs however [body]
    completes; the completion of [body] stands unless [fin] throws. *)
Definition try_finally {A} (body : M A) (fin : M unit) : M A :=
  fun s =>
    let (r, s1) := body s in
    match fin s1 with
    | (Normal _, s2) => (r, s2)
    | (Throw e, s2) => (Throw e, s2)
    end.

Definition record (c : Call) (w : W) (s : HState) : HState :=
  {| world := w; calls := calls s ++ [c]; statusCode := statusCode s |}.

(** [await fastify.pg.connect()] *)
Definition pg_connect : M Client :=
  fun s =>
    let (r, w) := connect (world s) in
    (r, record (CConnect r) w s).

(** [await client.query(text, values)] *)
Definition client_query (client : Client) (text : string)
           (values : option (list JsVal)) : M QueryResult :=
  fun s =>
    let (r, w) := query client text values (world s) in
    (r, record (CQuery client text values r) w s).

(** [client.release()] *)
Definition client_release (client : Client) : M unit :=
  fun s => (Normal tt, record (CRelease client) (release client (world s)) s).

(** [reply.code(n)] *)
Definition reply_code (n : Z) : M unit :=
  fun s =>
    (Normal tt, {| world := world s; calls := calls s; statusCode := n |}).

Local Notation "x <- m ;; k" := (bind m (fun x => k))
  (at level 61, m at next level, right associativity).
Local Notation "m ;;; k" := (bind m (fun _ => k))
  (at level 61, right associativity).

(** ** The four route handlers of [createApp] *)

(** [fastify.get("/todos", ...)] *)
Definition get_todos : M JsVal :=
  client <- pg_connect ;;
  try_finally
    (res <- client_query client "SELECT * FROM todos ORDER BY id" None ;;
     ret (VArr (rows res)))
    (client_release client).

(** [fastify.post("/todos", ...)] *)
Definition post_todos (request : Request) : M JsVal :=
  title <- lift (destructure (body request) "title") ;;
  client <- pg_connect ;;
  try_finally
    (res <- client_query client
              "INSERT INTO todos (title, completed) VALUES ($1, $2) RETURNING *"
              (Some [title; VBool false]) ;;
     reply_code 201 ;;;
     ret (nth 0 (rows res) VUndefined))
    (client_release client).

(** [fastify.put("/todos/:id", ...)] *)
Definition put_todos (request : Request) : M JsVal :=
  let id := id (params request) in
  title <- lift (destructure (body request) "title") ;;
  completed <- lift (destructure (body request) "completed") ;;
  client <- pg_connect ;;
  try_finally
    (res <- client_query client
              "UPDATE todos SET title = $1, completed = $2 WHERE id = $3 RETURNING *"
              (Some [title; completed; VStr id]) ;;
     if (Z.of_nat (List.length (rows res)) =? 0)
     then reply_code 404 ;;;
          ret (VObj [("error", VStr "TODO not found")])
     else ret (nth 0 (rows res) VUndefined))
    (client_release client).

(** [fastify.delete("/todos/:id", ...)] *)
Definition delete_todos (request : Request) : M JsVal :=
  let id := id (params request) in
  client <- pg_connect ;;
  try_finally
    (res <- client_query client "DELETE FROM todos WHERE id = $1"
              (Some [VStr id]) ;;
     if strict_eq_number (rowCount res) 0
     then reply_code 404 ;;;
          ret (VObj [("error", VStr "TODO not found")])
     else reply_code 204 ;;;
          ret (VStr ""))
    (client_release client).

(** ** Running a handler *)

(** What leaves the handler: a reply with the status code set on it and
    the returned payload, or the error that was not caught. *)
Inductive Outcome : Type :=
| Responded (status : Z) (payload : JsVal)
| Propagated (e : Err).

(** A fresh reply has status code 200 and no call has been made yet. *)
Definition run (h : M JsVal) (w : W) : Completion JsVal * HState :=
  h {| world := w; calls := []; statusCode := 200 |}.

Definition outcome (h : M JsVal) (w : W) : Outcome :=
  match run h w with
  | (Normal v, s) => Responded (statusCode s) v
  | (Throw e, _) => Propagated e
  end.

Definition trace (h : M JsVal) (w : W) : list Call := calls (snd (run h w)).

Definition world_after (h : M JsVal) (w : W) : W := world (snd (run h w)).

(** The four operations and the handler each one is routed to. *)
Inductive Operation : Type := OpList | OpCreate | OpUpdate | OpDelete.

Definition handler (op : Operation) (request : Request) : M JsVal :=
  match op with
  | OpList => get_todos
  | OpCreate => post_todos request
  | OpUpdate => put_todos request
  | OpDelete => delete_todos request
  end.

End Handlers.

Arguments HState W : clear implicits.
Arguments M W A : clear implicits.

(** ** The scripted client of the test helpers *)

Module Mock.

(** [createMockClient] and [setupDatabaseMock]: [connect] resolves to
    the one mock client or rejects, [query] answers from the values
    queued with [mockResolvedValueOnce] and then from the value set with
    [mockResolvedValue] or [mockRejectedValue], and [release] only
    counts its calls. *)
Record World : Type := MkWorld {
  connect_impl : Completion Client;
  query_once : list (Completion QueryResult);
  query_impl : Completion QueryResult;
  release_calls : nat
}.

Definition mock_connect (w : World) : Completion Client * World :=
  (connect_impl w, w).

Definition mock_query (_ : Client) (_ : string) (_ : option (list JsVal))
           (w : World) : Completion QueryResult * World :=
  match query_once w with
  | r :: rest =>
      (r, {| connect_impl := connect_impl w; query_once := rest;
             query_impl := query_impl w; release_calls := release_calls w |})
  | [] => (query_impl w, w)
  end.

Definition mock_release (_ : Client) (w : World) : World :=
  {| connect_impl := connect_impl w; query_once := query_once w;
     query_impl := query_impl w; release_calls := S (release_calls w) |}.

#[global] Instance pool : Pool World := {
  connect := mock_connect;
  query := mock_query;
  release := mock_release
}.

Definition mockClient : Client := 0%nat.

(** [setupDatabaseMock(app, mockClient)] with
    [mockClient.query.mockResolvedValue(result)]. *)
Definition resolving (result : QueryResult) : World :=
  {| connect_impl := Normal mockClient; query_once := [];
     query_impl := Normal result; release_calls := 0 |}.

(** [mockClient.query.mockRejectedValue(error)]. *)
Definition rejecting (error : Err) : World :=
  {| connect_impl := Normal mockClient; query_once := [];
     query_impl := Throw error; release_calls := 0 |}.

(** [app.pg.connect = mock().mockRejectedValue(error)]. *)
Definition unreachable (error : Err) : World :=
  {| connect_impl := Throw error; query_once := [];
     query_impl := Throw error; release_calls := 0 |}.

(** [mockClient.query.mockResolvedValueOnce(result)]: one more answer,
    queued behind the ones already queued. *)
Definition mockResolvedValueOnce (result : QueryResult) (w : World) : World :=
  {| connect_impl := connect_impl w;
     query_once := (query_once w ++ [Normal result])%list;
     query_impl := query_impl w; release_calls := release_calls w |}.

(** [assertClientCleanup(mockClient)], that is
    [expect(mockClient.release).toHaveBeenCalled()]: does it pass. *)
Definition assertClientCleanup (w : World) : bool :=
  (0 <? release_calls w)%nat.

End Mock.

(** ** The relational store and its pool *)

Module Pg.

(** Modelled from the spec: the [todos] table of the Relational Store
    (its schema file is not among the sources): a row has an [id], a
    [title] (text) and a [completed] flag (boolean). *)
Record Todo : Type := MkTodo {
  todo_id : Z;
  todo_title : string;
  todo_completed : bool
}.

(** A row as the driver hands it to the handler. *)
Definition row (t : Todo) : JsVal :=
  VObj [("id", VNum (todo_id t));
        ("title", VStr (todo_title t));
        ("completed", VBool (todo_completed t))].

(** Modelled from the spec: the store holds the table and the next id it
    will assign; the pool holds [pool_size] connections of which
    [in_use] are out. *)
Record Store : Type := MkStore {
  todos : list Todo;
  next_id : Z;
  in_use : nat;
  pool_size : nat
}.

Definition with_table (s : Store) (table : list Todo) (next : Z) : Store :=
  {| todos := table; next_id := next;
     in_use := in_use s; pool_size := pool_size s |}.

(** [ORDER BY id]: insertion sort on the [id] column. *)
Fixpoint insert_by_id (t : Todo) (sorted : list Todo) : list Todo :=
  match sorted with
  | [] => [t]
  | u :: rest =>
      if todo_id t <=? todo_id u then t :: u :: rest
      else u :: insert_by_id t rest
  end.

Fixpoint order_by_id (table : list Todo) : list Todo :=
  match table with
  | [] => []
  | t :: rest => insert_by_id t (order_by_id rest)
  end.

(** Modelled from the spec: ordered full-table read. *)
Definition select_all (s : Store) : QueryResult :=
  let found := order_by_id (todos s) in
  {| rows := map row found; rowCount := VNum (Z.of_nat (List.length found)) |}.

(** Modelled from the spec: insert-with-returning; the store assigns the
    [id]. *)
Definition insert_returning (title : string) (completed : bool) (s : Store)
  : QueryResult * Store :=
  let t := {| todo_id := next_id s; todo_title := title;
              todo_completed := completed |} in
  ({| rows := [row t]; rowCount := VNum 1 |},
   with_table s (todos s ++ [t]) (next_id s + 1)).

Definition matches (n : Z) (t : Todo) : bool := todo_id t =? n.

Definition set_fields (n : Z) (title : string) (completed : bool) (t : Todo)
  : Todo :=
  if matches n t
  then {| todo_id := todo_id t; todo_title := title;
          todo_completed := completed |}
  else t.

(** Modelled from the spec: update-with-returning filtered by [id]. *)
Definition update_returning (n : Z) (title : string) (completed : bool)
           (s : Store) : QueryResult * Store :=
  let table := map (set_fields n title completed) (todos s) in
  let hit := filter (matches n) table in
  ({| rows := map row hit; rowCount := VNum (Z.of_nat (List.length hit)) |},
   with_table s table (next_id s)).

(** Modelled from the spec: delete filtered by [id], reporting the
    affected-row count. *)
Definition delete_where (n : Z) (s : Store) : QueryResult * Store :=
  let gone := filter (matches n) (todos s) in
  ({| rows := []; rowCount := VNum (Z.of_nat (List.length gone)) |},
   with_table s (filter (fun t => negb (matches n t)) (todos s)) (next_id s)).

(** The store compares the [id] column with the text it is given by
    reading that text as a decimal integer. *)
Definition digit (c : Ascii.ascii) : option Z :=
  let n := Z.of_nat (Ascii.nat_of_ascii c) in
  if (48 <=? n) && (n <=? 57) then Some (n - 48) else None.

Fixpoint digits (s : string) (acc : Z) : option Z :=
  match s with
  | EmptyString => Some acc
  | String c rest =>
      match digit c with
      | Some d => digits rest (10 * acc + d)
      | None => None
      end
  end.

Definition integer (s : string) : option Z :=
  match s with
  | EmptyString => None
  | _ => digits s 0
  end.

Definition rejected (message : string) : Err := MkErr "error" message.

(** Modelled from the spec: the four statements the store must support.
    A parameter that does not fit its column (a title that is not text,
    a flag that is not a boolean, an id that is not a number) and any
    other statement text is a store-side rejection; the spec leaves the
    store's answer to such input open. *)
Definition execute (text : string) (values : option (list JsVal)) (s : Store)
  : Completion QueryResult * Store :=
  if String.eqb text "SELECT * FROM todos ORDER BY id" then
    match values with
    | None | Some [] => (Normal (select_all s), s)
    | _ => (Throw (rejected "bind message supplies too many parameters"), s)
    end
  else if String.eqb text
            "INSERT INTO todos (title, completed) VALUES ($1, $2) RETURNING *" then
    match values with
    | Some [VStr title; VBool completed] =>
        let (r, s') := insert_returning title completed s in (Normal r, s')
    | _ => (Throw (rejected "parameter does not fit its column"), s)
    end
  else if String.eqb text
            "UPDATE todos SET title = $1, completed = $2 WHERE id = $3 RETURNING *" then
    match values with
    | Some [VStr title; VBool completed; VStr id] =>
        match integer id with
        | Some n =>
            let (r, s') := update_returning n title completed s in (Normal r, s')
        | None => (Throw (rejected "invalid input syntax for type integer"), s)
        end
    | _ => (Throw (rejected "parameter does not fit its column"), s)
    end
  else if String.eqb text "DELETE FROM todos WHERE id = $1" then
    match values with
    | Some [VStr id] =>
        match integer id with
        | Some n => let (r, s') := delete_where n s in (Normal r, s')
        | None => (Throw (rejected "invalid input syntax for type integer"), s)
        end
    | _ => (Throw (rejected "parameter does not fit its column"), s)
    end
  else (Throw (rejected "syntax error"), s).

(** The store with one more connection out. *)
Definition lease (s : Store) : Store :=
  {| todos := todos s; next_id := next_id s;
     in_use := S (in_use s); pool_size := pool_size s |}.

(** Modelled from the spec: acquire hands out a connection when one is
    free and fails with an error otherwise; release returns it. *)
Definition acquire (s : Store) : Completion Client * Store :=
  if (in_use s <? pool_size s)%nat
  then (Normal (in_use s), lease s)
  else (Throw (MkErr "Error" "timeout exceeded when trying to connect"), s).

Definition give_back (_ : Client) (s : Store) : Store :=
  {| todos := todos s; next_id := next_id s;
     in_use := pred (in_use s); pool_size := pool_size s |}.

#[global] Instance pool : Pool Store := {
  connect := acquire;
  query := fun _ => execute;
  release := give_back
}.

(** A connection is free. *)
Definition available (s : Store) : Prop := (in_use s < pool_size s)%nat.

(** Ids already in the table lie below the next id to be assigned. *)
Definition well_formed (s : Store) : Prop :=
  Forall (fun t => todo_id t < next_id s) (todos s).

Definition ascending (table : list Todo) : Prop :=
  Sorted (fun t u => todo_id t <= todo_id u) table.

End Pg.

(** ** Reading a trace *)

(** The clients the pool handed out. *)
Fixpoint acquired (log : list Call) : list Client :=
  match log with
  | [] => []
  | CConnect (Normal c) :: rest => c :: acquired rest
  | _ :: rest => acquired rest
  end.

(** The clients [release] was invoked on, one entry per invocation. *)
Fixpoint releases (log : list Call) : list Client :=
  match log with
  | [] => []
  | CRelease c :: rest => c :: releases rest
  | _ :: rest => releases rest
  end.

(** The statements sent to the store, with their parameters. *)
Fixpoint statements (log : list Call) : list (string * option (list JsVal)) :=
  match log with
  | [] => []
  | CQuery _ text values _ :: rest => (text, values) :: statements rest
  | _ :: rest => statements rest
  end.

(** The call rejected with [e]: a failed acquisition or a failed
    statement. *)
Definition raises (e : Err) (call : Call) : Prop :=
  match call with
  | CConnect (Throw e') => e' = e
  | CQuery _ _ _ (Throw e') => e' = e
  | _ => False
  end.

(** [x] occurs in [l] at one position and nowhere else. *)
Definition exactly_once {A : Type} (x : A) (l : list A) : Prop :=
  exists before after : list A,
    l = (before ++ x :: after)%list /\ ~ In x before /\ ~ In x after.

Definition not_found : JsVal := VObj [("error", VStr "TODO not found")].

Definition SELECT : string := "SELECT * FROM todos ORDER BY id".
Definition INSERT : string :=
  "INSERT INTO todos (title, completed) VALUES ($1, $2) RETURNING *".
Definition UPDATE : string :=
  "UPDATE todos SET title = $1, completed = $2 WHERE id = $3 RETURNING *".
Definition DELETE : string := "DELETE FROM todos WHERE id = $1".

(** ** The shape of a run *)

Section Replies.

Context {W : Type} {P : Pool W}.

(** The runs of the handlers in closed form; [run_get_todos] and its
    siblings below prove that the handlers run to these.

    After the client is acquired every handler has the same shape: one
    statement, a reply built from its result, the release. *)
Definition served (c : Client) (text : string) (values : option (list JsVal))
           (reply : QueryResult -> Z * JsVal) (w1 : W)
  : Completion JsVal * HState W :=
  let (r, w2) := query c text values w1 in
  (match r with
   | Normal res => Normal (snd (reply res))
   | Throw e => Throw e
   end,
   {| world := release c w2;
      calls := [CConnect (Normal c); CQuery c text values r; CRelease c];
      statusCode := match r with
                    | Normal res => fst (reply res)
                    | Throw _ => 200
                    end |}).

(** The acquisition was rejected: nothing else happens. *)
Definition refused (e : Err) (w1 : W) : Completion JsVal * HState W :=
  (Throw e, {| world := w1; calls := [CConnect (Throw e)]; statusCode := 200 |}).

(** The body could not be destructured: the pool is not touched. *)
Definition unread (e : Err) (w : W) : Completion JsVal * HState W :=
  (Throw e, {| world := w; calls := []; statusCode := 200 |}).

(** Status code and payload each handler builds from a result. *)
Definition list_reply (res : QueryResult) : Z * JsVal :=
  (200, VArr (rows res)).

Definition create_reply (res : QueryResult) : Z * JsVal :=
  (201, nth 0 (rows res) VUndefined).

Definition update_reply (res : QueryResult) : Z * JsVal :=
  match rows res with
  | [] => (404, not_found)
  | r :: _ => (200, r)
  end.

Definition delete_reply (res : QueryResult) : Z * JsVal :=
  if strict_eq_number (rowCount res) 0 then (404, not_found)
  else (204, VStr "").

(** A run stops before the pool is touched, or at a refused
    acquisition, or it serves the request on the acquired client. *)
Inductive RunShape (w : W) (r : Completion JsVal * HState W) : Prop :=
| ShapeUnread (e : Err) (E : r = unread e w)
| ShapeRefused (e : Err) (w1 : W)
               (C : connect w = (Throw e, w1)) (E : r = refused e w1)
| ShapeServed (c : Client) (w1 : W) (text : string)
              (values : option (list JsVal))
              (reply : QueryResult -> Z * JsVal)
              (C : connect w = (Normal c, w1))
              (E : r = served c text values reply w1).

End Replies.

(** ** Requests, one after another *)

Section Serving.

Context {W : Type} {P : Pool W}.

(** The statement text each handler sends. *)
Definition sql (op : Operation) : string :=
  match op with
  | OpList => SELECT
  | OpCreate => INSERT
  | OpUpdate => UPDATE
  | OpDelete => DELETE
  end.

(** What a destructured property is bound to when destructuring does not
    throw. *)
Definition field (k : string) (v : JsVal) : JsVal :=
  match destructure v k with
  | Normal x => x
  | Throw _ => VUndefined
  end.

(** The parameters each handler sends with its statement. *)
Definition parameters (op : Operation) (request : Request)
  : option (list JsVal) :=
  match op with
  | OpList => None
  | OpCreate => Some [field "title" (body request); VBool false]
  | OpUpdate => Some [field "title" (body request);
                      field "completed" (body request);
                      VStr (id (params request))]
  | OpDelete => Some [VStr (id (params request))]
  end.

Definition reply_of (op : Operation) : QueryResult -> Z * JsVal :=
  match op with
  | OpList => list_reply
  | OpCreate => create_reply
  | OpUpdate => update_reply
  | OpDelete => delete_reply
  end.

(** The body can be destructured by the handlers that destructure it. *)
Definition readable (op : Operation) (request : Request) : Prop :=
  match op with
  | OpCreate | OpUpdate =>
      body request <> VUndefined /\ body request <> VNull
  | OpList | OpDelete => True
  end.

(** The value has no property [k] and destructuring it does not throw. *)
Definition lacks (k : string) (v : JsVal) : Prop :=
  match v with
  | VUndefined | VNull => False
  | VObj fields => ~ In k (map fst fields)
  | _ => True
  end.

(** Requests awaited one after another, as the tests send them with
    [await app.inject(...)]: each handler starts on the world the one
    before left, with a reply of its own. *)
Fixpoint serve (requests : list (Operation * Request)) (w : W)
  : list Outcome * W :=
  match requests with
  | [] => ([], w)
  | (op, request) :: rest =>
      let (outcomes, w') := serve rest (world_after (handler op request) w) in
      (outcome (handler op request) w :: outcomes, w')
  end.

(** The reply a handler makes of a result. *)
Definition responded (op : Operation) (res : QueryResult) : Outcome :=
  Responded (fst (reply_of op res)) (snd (reply_of op res)).

End Serving.

(** ** Sample requests and worlds *)

Module Samples.

(** [sampleTodos] of the test helpers, the first two, stored out of
    order. *)
Definition store : Pg.Store :=
  {| Pg.todos := [Pg.MkTodo 2 "Build REST API" false;
                  Pg.MkTodo 1 "Learn TypeScript" true];
     Pg.next_id := 3; Pg.in_use := 0; Pg.pool_size := 1 |}.

Definition newTodo : JsVal :=
  VObj [("id", VNum 3); ("title", VStr "New todo"); ("completed", VBool false)].

(** [POST /todos] with a body that also carries [completed: true]. *)
Definition create : Request :=
  MkRequest (MkParams "")
            (VObj [("title", VStr "New todo"); ("completed", VBool true)]).

(** [PUT /todos/999] *)
Definition update : Request :=
  MkRequest (MkParams "999")
            (VObj [("title", VStr "Updated todo"); ("completed", VBool true)]).

(** [DELETE /todos/999] *)
Definition delete : Request := MkRequest (MkParams "999") VUndefined.

Definition queryFailed : Err := MkErr "Error" "Query failed".

(** An empty table behind a pool of one connection. *)
Definition empty : Pg.Store :=
  {| Pg.todos := []; Pg.next_id := 1; Pg.in_use := 0; Pg.pool_size := 1 |}.

Definition buyMilk (completed : bool) : JsVal :=
  VObj [("title", VStr "Buy milk"); ("completed", VBool completed)].

(** [POST /todos] with the payload [{}]. *)
Definition untitled : Request := MkRequest (MkParams "1") (VObj []).

(** A request without a body. *)
Definition bodiless : Request := MkRequest (MkParams "1") VUndefined.

Definition learnBun : JsVal :=
  VObj [("id", VNum 1); ("title", VStr "Learn Bun"); ("completed", VBool false)].

(** The mock client of the CRUD flow test before its second and third
    request: one answer queued for the POST, one for the GET. *)
Definition scripted : Mock.World :=
  Mock.mockResolvedValueOnce
    {| rows := [learnBun]; rowCount := VUndefined |}
    (Mock.mockResolvedValueOnce
       {| rows := [learnBun]; rowCount := VUndefined |}
       (Mock.resolving {| rows := []; rowCount := VUndefined |})).

Definition flow : list (Operation * Request) :=
  [(OpCreate, MkRequest (MkParams "") (VObj [("title", VStr "Learn Bun")]));
   (OpList, bodiless)].

End Samples.

(** ** The handlers, run on any pool *)

Section Runs.

Context {W : Type} {P : Pool W}.

Lemma run_get_todos (w : W) :
  run get_todos w =
  match connect w with
  | (Normal c, w1) => served c SELECT None list_reply w1
  | (Throw e, w1) => refused e w1
  end.
Proof.
  unfold run, get_todos, bind, try_finally, pg_connect, client_query,
    client_release, served, refused, record, ret; simpl.
  destruct (connect w) as [[c | e] w1]; simpl; [| reflexivity].
  destruct (query c _ None w1) as [[res | e] w2]; reflexivity.
Qed.

Lemma run_post_todos (request : Request) (w : W) :
  run (post_todos request) w =
  match destructure (body request) "title" with
  | Throw e => unread e w
  | Normal title =>
      match connect w with
      | (Normal c, w1) =>
          served c INSERT (Some [title; VBool false]) create_reply w1
      | (Throw e, w1) => refused e w1
      end
  end.
Proof.
  unfold run, post_todos, bind, try_finally, pg_connect, client_query,
    client_release, reply_code, served, refused, unread, record, ret, lift;
    simpl.
  destruct (destructure (body request) "title") as [title | e];
    [| reflexivity].
  destruct (connect w) as [[c | e] w1]; simpl; [| reflexivity].
  destruct (query c _ (Some [title; VBool false]) w1) as [[res | e] w2];
    reflexivity.
Qed.

Lemma run_put_todos (request : Request) (w : W) :
  run (put_todos request) w =
  match destructure (body request) "title" with
  | Throw e => unread e w
  | Normal title =>
      match destructure (body request) "completed" with
      | Throw e => unread e w
      | Normal completed =>
          match connect w with
          | (Normal c, w1) =>
              served c UPDATE
                     (Some [title; completed; VStr (id (params request))])
                     update_reply w1
          | (Throw e, w1) => refused e w1
          end
      end
  end.
Proof.
  unfold run, put_todos, bind, try_finally, pg_connect, client_query,
    client_release, reply_code, served, refused, unread, record, ret, lift,
    update_reply; simpl.
  destruct (destructure (body request) "title") as [title | e];
    [| reflexivity].
  destruct (destructure (body request) "completed") as [completed | e];
    [| reflexivity].
  destruct (connect w) as [[c | e] w1]; simpl; [| reflexivity].
  destruct (query c _ (Some [title; completed; _]) w1) as [[res | e] w2];
    [| reflexivity].
  destruct (rows res); reflexivity.
Qed.

Lemma run_delete_todos (request : Request) (w : W) :
  run (delete_todos request) w =
  match connect w with
  | (Normal c, w1) =>
      served c DELETE (Some [VStr (id (params request))]) delete_reply w1
  | (Throw e, w1) => refused e w1
  end.
Proof.
  unfold run, delete_todos, bind, try_finally, pg_connect, client_query,
    client_release, reply_code, served, refused, record, ret,
    delete_reply; simpl.
  destruct (connect w) as [[c | e] w1]; simpl; [| reflexivity].
  destruct (query c _ (Some [_]) w1) as [[res | e] w2]; [| reflexivity].
  destruct (strict_eq_number (rowCount res) 0); reflexivity.
Qed.

End Runs.

(** ** What every run looks like *)

Section Shapes.

Context {W : Type} {P : Pool W}.

Lemma handler_shape (op : Operation) (request : Request) (w : W) :
  RunShape w (run (handler op request) w).
Proof.
  destruct op; simpl.
  - rewrite run_get_todos.
    destruct (connect w) as [[c | e] w1] eqn:C.
    + eapply ShapeServed; eauto.
    + eapply ShapeRefused; eauto.
  - rewrite run_post_todos.
    destruct (destructure (body request) "title") as [title | e].
    + destruct (connect w) as [[c | e] w1] eqn:C.
      * eapply ShapeServed; eauto.
      * eapply ShapeRefused; eauto.
    + eapply ShapeUnread; eauto.
  - rewrite run_put_todos.
    destruct (destructure (body request) "title") as [title | e].
    + destruct (destructure (body request) "completed") as [completed | e].
      * destruct (connect w) as [[c | e] w1] eqn:C.
        -- eapply ShapeServed; eauto.
        -- eapply ShapeRefused; eauto.
      * eapply ShapeUnread; eauto.
    + eapply ShapeUnread; eauto.
  - rewrite run_delete_todos.
    destruct (connect w) as [[c | e] w1] eqn:C.
    + eapply ShapeServed; eauto.
    + eapply ShapeRefused; eauto.
Qed.

Lemma served_calls c text values reply (w1 : W) :
  calls (snd (served c text values reply w1)) =
  [CConnect (Normal c);
   CQuery c text values (fst (query c text values w1));
   CRelease c].
Proof.
  unfold served. destruct (query c text values w1); reflexivity.
Qed.

Lemma served_world c text values reply (w1 : W) :
  world (snd (served c text values reply w1)) =
  release c (snd (query c text values w1)).
Proof.
  unfold served. destruct (query c text values w1); reflexivity.
Qed.

Lemma served_resolved c text values reply (w1 w2 : W) res :
  query c text values w1 = (Normal res, w2) ->
  served c text values reply w1 =
  (Normal (snd (reply res)),
   {| world := release c w2;
      calls := [CConnect (Normal c); CQuery c text values (Normal res);
                CRelease c];
      statusCode := fst (reply res) |}).
Proof.
  intros Q. unfold served. rewrite Q. reflexivity.
Qed.

Lemma served_rejected c text values reply (w1 w2 : W) e :
  query c text values w1 = (Throw e, w2) ->
  served c text values reply w1 =
  (Throw e,
   {| world := release c w2;
      calls := [CConnect (Normal c); CQuery c text values (Throw e);
                CRelease c];
      statusCode := 200 |}).
Proof.
  intros Q. unfold served. rewrite Q. reflexivity.
Qed.

End Shapes.

(** ** The claims about the handlers *)

Section Claims.

Context {W : Type} {P : Pool W}.

(** C1.  For each of the four operations and whatever the pool and the
    client do: when the pool hands out a client [c], the calls of the
    request are the acquisition, one statement on [c] and one release of
    [c], in that order, so [release] is invoked exactly once and on [c].
    The statement's [result] is not constrained: the release follows it
    both when it resolves and when it rejects. *)
Theorem release_exactly_once (op : Operation) (request : Request) (w : W)
        (c : Client) :
  In (CConnect (Normal c)) (trace (handler op request) w) ->
  releases (trace (handler op request) w) = [c] /\
  exists text values result,
    trace (handler op request) w =
    [CConnect (Normal c); CQuery c text values result; CRelease c].
Proof.
  unfold trace.
  destruct (handler_shape op request w) as [e E | e w1 C E | c' w1 t v rp C E];
    rewrite E.
  - simpl. intros [].
  - simpl. intros [A | []]. discriminate.
  - rewrite served_calls. intros [A | [A | [A | []]]]; try discriminate.
    injection A as ->. split; [reflexivity | eauto].
Qed.

(** C6.  For each operation: when the acquisition or the statement is
    rejected with [e], the handler completes by throwing that same [e],
    no reply is produced, and every client that was acquired has been
    released by then, the release being the last call made. *)
Theorem failure_propagates (op : Operation) (request : Request) (w : W)
        (e : Err) :
  Exists (raises e) (trace (handler op request) w) ->
  outcome (handler op request) w = Propagated e /\
  releases (trace (handler op request) w) =
  acquired (trace (handler op request) w) /\
  forall c, In c (acquired (trace (handler op request) w)) ->
            last (trace (handler op request) w) (CConnect (Normal c)) =
            CRelease c /\
            exists text values,
              trace (handler op request) w =
              [CConnect (Normal c); CQuery c text values (Throw e);
               CRelease c].
Proof.
  unfold trace, outcome. rewrite Exists_exists.
  destruct (handler_shape op request w) as [e' E | e' w1 C E | c' w1 t v rp C E];
    rewrite E.
  - simpl. intros (call & [] & _).
  - simpl. intros (call & [<- | []] & R). simpl in R. subst e'.
    split; [reflexivity | split; [reflexivity |]]. intros c [].
  - destruct (query c' t v w1) as [[res | e'] w2] eqn:Q.
    + rewrite (served_resolved _ _ _ _ _ _ _ Q). simpl.
      intros (call & [<- | [<- | [<- | []]]] & R); destruct R.
    + rewrite (served_rejected _ _ _ _ _ _ _ Q). simpl.
      intros (call & [<- | [<- | [<- | []]]] & R); try destruct R.
      split; [reflexivity | split; [reflexivity |]].
      intros c [<- | []]. split; [reflexivity | eauto].
Qed.

Lemma strict_eq_zero (v : JsVal) :
  strict_eq_number v 0 = true <-> v = VNum 0.
Proof.
  destruct v; simpl; split; intros E; try discriminate.
  - apply Z.eqb_eq in E. now subst.
  - injection E as ->. reflexivity.
Qed.

Lemma outcome_served (h : M W JsVal) (w w1 w2 : W) c text values reply res :
  run h w = served c text values reply w1 ->
  query c text values w1 = (Normal res, w2) ->
  outcome h w = Responded (fst (reply res)) (snd (reply res)) /\
  trace h w = [CConnect (Normal c); CQuery c text values (Normal res);
               CRelease c] /\
  world_after h w = release c w2.
Proof.
  intros R Q. unfold outcome, trace, world_after. rewrite R.
  rewrite (served_resolved _ _ _ _ _ _ _ Q). simpl. auto.
Qed.

(** The List handler on a client that answers. *)
Lemma list_served (w w1 w2 : W) c res :
  connect w = (Normal c, w1) ->
  query c SELECT None w1 = (Normal res, w2) ->
  outcome get_todos w = Responded 200 (VArr (rows res)) /\
  trace get_todos w = [CConnect (Normal c); CQuery c SELECT None (Normal res);
                       CRelease c] /\
  world_after get_todos w = release c w2.
Proof.
  intros C Q.
  apply (outcome_served get_todos w w1 w2 c SELECT None list_reply res);
    [| exact Q].
  rewrite run_get_todos, C. reflexivity.
Qed.

(** The Update handler on a client that answers. *)
Lemma update_served (request : Request) (w w1 w2 : W) title completed c res :
  destructure (body request) "title" = Normal title ->
  destructure (body request) "completed" = Normal completed ->
  connect w = (Normal c, w1) ->
  query c UPDATE (Some [title; completed; VStr (id (params request))]) w1 =
  (Normal res, w2) ->
  outcome (put_todos request) w =
  match rows res with
  | [] => Responded 404 (VObj [("error", VStr "TODO not found")])
  | r :: _ => Responded 200 r
  end /\
  trace (put_todos request) w =
  [CConnect (Normal c);
   CQuery c UPDATE (Some [title; completed; VStr (id (params request))])
          (Normal res);
   CRelease c] /\
  world_after (put_todos request) w = release c w2.
Proof.
  intros T D C Q.
  destruct (outcome_served (put_todos request) w w1 w2 c UPDATE
              (Some [title; completed; VStr (id (params request))])
              update_reply res) as (O & L & A); [| exact Q |].
  - rewrite run_put_todos, T, D, C. reflexivity.
  - rewrite O, L, A. unfold update_reply.
    destruct (rows res); simpl; auto.
Qed.

(** The Delete handler on a client that answers. *)
Lemma delete_served (request : Request) (w w1 w2 : W) c res :
  connect w = (Normal c, w1) ->
  query c DELETE (Some [VStr (id (params request))]) w1 = (Normal res, w2) ->
  outcome (delete_todos request) w =
  (if strict_eq_number (rowCount res) 0
   then Responded 404 (VObj [("error", VStr "TODO not found")])
   else Responded 204 (VStr "")) /\
  trace (delete_todos request) w =
  [CConnect (Normal c);
   CQuery c DELETE (Some [VStr (id (params request))]) (Normal res);
   CRelease c] /\
  world_after (delete_todos request) w = release c w2.
Proof.
  intros C Q.
  destruct (outcome_served (delete_todos request) w w1 w2 c DELETE
              (Some [VStr (id (params request))])
              delete_reply res) as (O & L & A); [| exact Q |].
  - rewrite run_delete_todos, C. reflexivity.
  - rewrite O, L, A. unfold delete_reply.
    destruct (strict_eq_number (rowCount res) 0); simpl; auto.
Qed.

(** C2.  A Create request whose body yields [title], served on a client
    [c] whose INSERT resolves to [res]: the one statement sent is the
    INSERT with the parameters [title] and [false]; the reply has status
    201 and its payload is [rows[0]] of that same result.  Nothing else
    of the body is read: any request with the same [title], whatever
    [completed] it carries, runs identically. *)
Theorem create_inserts_uncompleted (request : Request) (w w1 w2 : W)
        (title : JsVal) (c : Client) (res : QueryResult) :
  destructure (body request) "title" = Normal title ->
  connect w = (Normal c, w1) ->
  query c INSERT (Some [title; VBool false]) w1 = (Normal res, w2) ->
  trace (post_todos request) w =
  [CConnect (Normal c);
   CQuery c INSERT (Some [title; VBool false]) (Normal res);
   CRelease c] /\
  outcome (post_todos request) w =
  Responded 201 (nth 0 (rows res) VUndefined) /\
  forall request' : Request,
    destructure (body request') "title" = Normal title ->
    run (post_todos request') w = run (post_todos request) w.
Proof.
  intros T C Q.
  destruct (outcome_served (post_todos request) w w1 w2 c INSERT
              (Some [title; VBool false]) create_reply res)
    as (O & L & _); [| exact Q |].
  - rewrite run_post_todos, T, C. reflexivity.
  - split; [exact L | split; [exact O |]].
    intros request' T'. rewrite !run_post_todos, T, T'. reflexivity.
Qed.

(** C4.  A Delete request served on a client [c] whose DELETE resolves
    to [res]: if the reported count is 0 the reply is 404 with
    [{ error: "TODO not found" }], and that reply is the very reply of
    any Update whose statement returned no row; if the count is 1 the
    reply is 204 with the empty string as body. *)
Theorem delete_replies (request : Request) (w w1 w2 : W) (c : Client)
        (res : QueryResult) :
  connect w = (Normal c, w1) ->
  query c DELETE (Some [VStr (id (params request))]) w1 = (Normal res, w2) ->
  (rowCount res = VNum 0 ->
   outcome (delete_todos request) w =
   Responded 404 (VObj [("error", VStr "TODO not found")]) /\
   forall (request' : Request) (w' w1' w2' : W) title completed c' res',
     destructure (body request') "title" = Normal title ->
     destructure (body request') "completed" = Normal completed ->
     connect w' = (Normal c', w1') ->
     query c' UPDATE (Some [title; completed; VStr (id (params request'))])
           w1' = (Normal res', w2') ->
     rows res' = [] ->
     outcome (put_todos request') w' = outcome (delete_todos request) w) /\
  (rowCount res = VNum 1 ->
   outcome (delete_todos request) w = Responded 204 (VStr "")).
Proof.
  intros C Q. destruct (delete_served request w w1 w2 c res C Q) as (O & _).
  split; intros N; rewrite N in O; simpl in O; [split |]; try exact O.
  intros request' w' w1' w2' title completed c' res' T D C' Q' Z.
  destruct (update_served request' w' w1' w2' title completed c' res'
              T D C' Q') as (O' & _).
  rewrite O', O, Z. reflexivity.
Qed.

(** C9.  A Delete request served on a client [c] whose DELETE resolves
    to [res]: the reply is the 404 not-found reply exactly when
    [rowCount] is the number 0; for every other [rowCount], among them
    [null], [undefined] (an absent count) and any number above one, the
    reply is 204 with the empty string as body. *)
Theorem delete_404_only_on_zero (request : Request) (w w1 w2 : W)
        (c : Client) (res : QueryResult) :
  connect w = (Normal c, w1) ->
  query c DELETE (Some [VStr (id (params request))]) w1 = (Normal res, w2) ->
  (outcome (delete_todos request) w =
   Responded 404 (VObj [("error", VStr "TODO not found")]) <->
   rowCount res = VNum 0) /\
  (rowCount res <> VNum 0 ->
   outcome (delete_todos request) w = Responded 204 (VStr "")) /\
  (rowCount res = VNull \/ rowCount res = VUndefined \/
   (exists n, rowCount res = VNum n /\ 1 < n) ->
   outcome (delete_todos request) w = Responded 204 (VStr "")).
Proof.
  intros C Q. destruct (delete_served request w w1 w2 c res C Q) as (O & _).
  assert (Z := strict_eq_zero (rowCount res)).
  destruct (strict_eq_number (rowCount res) 0).
  - assert (E : rowCount res = VNum 0) by now apply Z.
    split; [split; auto | split].
    + intros N. now elim N.
    + rewrite E. intros [X | [X | (n & X & L)]]; try discriminate.
      injection X as <-. lia.
  - split; [| split; intros _; exact O].
    rewrite O. split; [discriminate |].
    intros E. apply Z in E. discriminate.
Qed.

(** C7.  Update and Delete, served on a client [c]: the last parameter
    of the UPDATE and the only parameter of the DELETE is the string
    value holding [request.params.id] itself; the handler sends no other
    statement. *)
Theorem id_passed_verbatim (request : Request) (w w1 : W) (c : Client) :
  connect w = (Normal c, w1) ->
  statements (trace (delete_todos request) w) =
  [(DELETE, Some [VStr (id (params request))])] /\
  forall title completed,
    destructure (body request) "title" = Normal title ->
    destructure (body request) "completed" = Normal completed ->
    statements (trace (put_todos request) w) =
    [(UPDATE, Some [title; completed; VStr (id (params request))])].
Proof.
  intros C. unfold trace. split.
  - rewrite run_delete_todos, C, served_calls. reflexivity.
  - intros title completed T D.
    rewrite run_put_todos, T, D, C, served_calls. reflexivity.
Qed.

End Claims.

(** An invariant of the world that the three collaborator calls keep is
    kept by every handler: a handler touches the world through them
    only. *)
Lemma handler_preserves {W : Type} {P : Pool W} (I : W -> Prop) :
  (forall w, I w -> I (snd (connect w))) ->
  (forall c text values w, I w -> I (snd (query c text values w))) ->
  (forall c w, I w -> I (release c w)) ->
  forall op request w, I w -> I (world_after (handler op request) w).
Proof.
  intros IC IQ IR op request w Iw. unfold world_after.
  destruct (handler_shape op request w) as [e E | e w1 C E | c w1 t v rp C E];
    rewrite E.
  - exact Iw.
  - simpl. specialize (IC w Iw). now rewrite C in IC.
  - rewrite served_world. apply IR, IQ.
    specialize (IC w Iw). now rewrite C in IC.
Qed.

(** ** Facts about the store *)

Module PgFacts.

Import Pg.

Lemma insert_by_id_perm (t : Todo) (l : list Todo) :
  Permutation (insert_by_id t l) (t :: l).
Proof.
  induction l as [| u l IH]; simpl.
  - apply Permutation_refl.
  - destruct (todo_id t <=? todo_id u).
    + apply Permutation_refl.
    + eapply perm_trans; [apply perm_skip, IH | apply perm_swap].
Qed.

Lemma order_by_id_perm (l : list Todo) : Permutation (order_by_id l) l.
Proof.
  induction l as [| t l IH]; simpl.
  - constructor.
  - eapply perm_trans; [apply insert_by_id_perm | now apply perm_skip].
Qed.

Lemma insert_by_id_hd (a t : Todo) (l : list Todo) :
  todo_id a <= todo_id t ->
  HdRel (fun x y => todo_id x <= todo_id y) a l ->
  HdRel (fun x y => todo_id x <= todo_id y) a (insert_by_id t l).
Proof.
  intros L Hd. destruct l as [| u l]; simpl.
  - now constructor.
  - destruct (todo_id t <=? todo_id u); constructor; auto.
    now inversion Hd.
Qed.

Lemma insert_by_id_ascending (t : Todo) (l : list Todo) :
  ascending l -> ascending (insert_by_id t l).
Proof.
  unfold ascending. induction l as [| u l IH]; simpl; intros S.
  - repeat constructor.
  - inversion S as [| ? ? S' Hd]; subst.
    destruct (Z.leb_spec (todo_id t) (todo_id u)).
    + constructor; [exact S | now constructor].
    + constructor; [now apply IH |].
      apply insert_by_id_hd; [lia | exact Hd].
Qed.

Lemma order_by_id_ascending (l : list Todo) : ascending (order_by_id l).
Proof.
  induction l as [| t l IH]; simpl.
  - constructor.
  - now apply insert_by_id_ascending.
Qed.

Lemma row_injective (t u : Todo) : row t = row u -> t = u.
Proof.
  destruct t, u. unfold row. simpl. intros E.
  injection E as -> -> ->. reflexivity.
Qed.

Lemma acquire_available (s : Store) :
  available s -> connect s = (Normal (in_use s), lease s).
Proof.
  unfold available. intros A. simpl. unfold acquire.
  destruct (Nat.ltb_spec (in_use s) (pool_size s)); [reflexivity | lia].
Qed.

Lemma acquire_exhausted (s : Store) :
  ~ available s -> exists e, connect s = (Throw e, s).
Proof.
  unfold available. intros A. simpl. unfold acquire.
  destruct (Nat.ltb_spec (in_use s) (pool_size s)); [lia | eauto].
Qed.

Lemma available_dec (s : Store) : available s \/ ~ available s.
Proof. unfold available. lia. Qed.

Lemma give_back_lease (c : Client) (s : Store) (table : list Todo) (next : Z) :
  release c (with_table (lease s) table next) = with_table s table next.
Proof. reflexivity. Qed.

Lemma with_table_same (s : Store) : with_table s (todos s) (next_id s) = s.
Proof. destruct s. reflexivity. Qed.

(** The four statements, executed. *)
Lemma execute_select (s : Store) :
  execute SELECT None s = (Normal (select_all s), s).
Proof. reflexivity. Qed.

Lemma execute_insert (title : string) (completed : bool) (s : Store) :
  execute INSERT (Some [VStr title; VBool completed]) s =
  (Normal (fst (insert_returning title completed s)),
   snd (insert_returning title completed s)).
Proof. reflexivity. Qed.

Lemma execute_update (title : string) (completed : bool) (id : string)
      (n : Z) (s : Store) :
  integer id = Some n ->
  execute UPDATE (Some [VStr title; VBool completed; VStr id]) s =
  (Normal (fst (update_returning n title completed s)),
   snd (update_returning n title completed s)).
Proof.
  intros I. unfold execute, UPDATE. simpl String.eqb. cbv iota.
  rewrite I. reflexivity.
Qed.

Lemma execute_delete (id : string) (n : Z) (s : Store) :
  integer id = Some n ->
  execute DELETE (Some [VStr id]) s =
  (Normal (fst (delete_where n s)), snd (delete_where n s)).
Proof.
  intros I. unfold execute, DELETE. simpl String.eqb. cbv iota.
  rewrite I. reflexivity.
Qed.

(** UPDATE with no matching row, and with a matching row. *)
Lemma update_misses (n : Z) (title : string) (completed : bool)
      (l : list Todo) :
  Forall (fun t => todo_id t <> n) l ->
  map (set_fields n title completed) l = l /\
  filter (matches n) l = [].
Proof.
  induction 1 as [| t l N _ [IHm IHf]]; simpl; [auto |].
  unfold set_fields at 1. unfold matches at 1 2.
  destruct (Z.eqb_spec (todo_id t) n); [contradiction |].
  now rewrite IHm, IHf.
Qed.

Lemma update_hits (n : Z) (title : string) (completed : bool)
      (l : list Todo) :
  Exists (fun t => todo_id t = n) l ->
  exists rest,
    filter (matches n) (map (set_fields n title completed) l) =
    MkTodo n title completed :: rest.
Proof.
  induction l as [| t l IH]; intros X; [inversion X |].
  assert (S : set_fields n title completed t =
              if todo_id t =? n then MkTodo (todo_id t) title completed
              else t) by reflexivity.
  cbn [map filter]. rewrite S.
  destruct (Z.eqb_spec (todo_id t) n) as [E | N].
  - subst n. unfold matches at 1. cbn [todo_id]. rewrite Z.eqb_refl. eauto.
  - unfold matches at 1. rewrite (proj2 (Z.eqb_neq _ _) N). apply IH.
    inversion X as [? ? E | ? ? X']; subst; [contradiction | exact X'].
Qed.

(** Exactly one occurrence, along a permutation and under [row]. *)
Lemma exactly_once_fresh (t : Todo) (l sorted : list Todo) :
  ~ In t l ->
  Permutation sorted (l ++ [t]) ->
  exactly_once t sorted.
Proof.
  intros Fresh Perm.
  assert (I : In t sorted).
  { eapply Permutation_in; [apply Permutation_sym, Perm |].
    apply in_or_app. right. now left. }
  destruct (in_split _ _ I) as (before & after & ->).
  exists before, after. split; [reflexivity |].
  assert (Perm' : Permutation (before ++ after) l).
  { apply Permutation_cons_inv with (a := t).
    eapply perm_trans; [apply Permutation_middle |].
    eapply perm_trans; [exact Perm |].
    apply Permutation_sym, Permutation_cons_append. }
  split; intros X; apply Fresh;
    apply (Permutation_in _ Perm'), in_or_app; auto.
Qed.

Lemma exactly_once_row (t : Todo) (l : list Todo) :
  exactly_once t l -> exactly_once (row t) (map row l).
Proof.
  intros (before & after & -> & Nb & Na).
  exists (map row before), (map row after).
  rewrite map_app. split; [reflexivity |].
  split; intros X; apply in_map_iff in X; destruct X as (u & E & I);
    apply row_injective in E; subst u; auto.
Qed.

End PgFacts.

(** ** The handlers, run on the store *)

Module PgRuns.

Import Pg PgFacts.

Lemma give_back_leased (c : Client) (s : Store) : release c (lease s) = s.
Proof. destruct s. reflexivity. Qed.

(** List on the store: all rows, ordered, and the world as it was. *)
Lemma list_on_store (s : Store) :
  available s ->
  outcome get_todos s =
  Responded 200 (VArr (map row (order_by_id (todos s)))) /\
  world_after get_todos s = s.
Proof.
  intros A.
  destruct (list_served s (lease s) (lease s) (in_use s) (select_all s))
    as (O & _ & V).
  - now apply acquire_available.
  - reflexivity.
  - split; [exact O |]. rewrite V. apply give_back_leased.
Qed.

Lemma list_keeps_store (s : Store) : world_after get_todos s = s.
Proof.
  destruct (available_dec s) as [A | A].
  - now apply list_on_store.
  - destruct (acquire_exhausted s A) as (e & C).
    unfold world_after. rewrite run_get_todos, C. reflexivity.
Qed.

(** Create on the store. *)
Lemma create_on_store (request : Request) (title : string) (s : Store) :
  destructure (body request) "title" = Normal (VStr title) ->
  available s ->
  outcome (post_todos request) s =
  Responded 201 (row (MkTodo (next_id s) title false)) /\
  world_after (post_todos request) s =
  with_table s (todos s ++ [MkTodo (next_id s) title false]) (next_id s + 1).
Proof.
  intros T A.
  destruct (outcome_served (post_todos request) s (lease s)
              (snd (insert_returning title false (lease s)))
              (in_use s) INSERT (Some [VStr title; VBool false])
              create_reply
              (fst (insert_returning title false (lease s))))
    as (O & _ & V).
  - rewrite run_post_todos, T, (acquire_available s A). reflexivity.
  - apply execute_insert.
  - split; [exact O |]. rewrite V. reflexivity.
Qed.

(** Update on the store. *)
Lemma update_on_store (request : Request) (title : string)
      (completed : bool) (n : Z) (s : Store) :
  destructure (body request) "title" = Normal (VStr title) ->
  destructure (body request) "completed" = Normal (VBool completed) ->
  integer (id (params request)) = Some n ->
  available s ->
  outcome (put_todos request) s =
  match filter (matches n) (map (set_fields n title completed) (todos s)) with
  | [] => Responded 404 (VObj [("error", VStr "TODO not found")])
  | t :: _ => Responded 200 (row t)
  end /\
  world_after (put_todos request) s =
  with_table s (map (set_fields n title completed) (todos s)) (next_id s).
Proof.
  intros T D I A.
  destruct (update_served request s (lease s)
              (snd (update_returning n title completed (lease s)))
              (VStr title) (VBool completed) (in_use s)
              (fst (update_returning n title completed (lease s))))
    as (O & _ & V); auto.
  - now apply acquire_available.
  - now apply execute_update.
  - split; [| rewrite V; reflexivity].
    rewrite O. simpl.
    destruct (filter (matches n)
                (map (set_fields n title completed) (todos s)));
      reflexivity.
Qed.

(** The store keeps its invariant through every statement. *)
Lemma insert_well_formed title completed (s : Store) :
  well_formed s -> well_formed (snd (insert_returning title completed s)).
Proof.
  unfold well_formed. simpl. intros F. apply Forall_app. split.
  - eapply Forall_impl; [| exact F]. simpl. intros. lia.
  - constructor; [simpl; lia | constructor].
Qed.

Lemma update_well_formed n title completed (s : Store) :
  well_formed s -> well_formed (snd (update_returning n title completed s)).
Proof.
  unfold well_formed. simpl. intros F. apply Forall_map.
  eapply Forall_impl; [| exact F]. intros t L.
  unfold set_fields. destruct (matches n t); exact L.
Qed.

Lemma delete_well_formed n (s : Store) :
  well_formed s -> well_formed (snd (delete_where n s)).
Proof.
  unfold well_formed. simpl. intros F. apply Forall_forall.
  intros t I. apply filter_In in I. destruct I as (I & _).
  revert t I. now apply Forall_forall.
Qed.

Lemma execute_well_formed text values (s : Store) :
  well_formed s -> well_formed (snd (execute text values s)).
Proof.
  intros F. unfold execute.
  repeat match goal with
         | |- context [insert_returning ?a ?b s] =>
             let K := fresh in
             pose proof (insert_well_formed a b s F) as K;
             destruct (insert_returning a b s); exact K
         | |- context [update_returning ?n ?a ?b s] =>
             let K := fresh in
             pose proof (update_well_formed n a b s F) as K;
             destruct (update_returning n a b s); exact K
         | |- context [delete_where ?n s] =>
             let K := fresh in
             pose proof (delete_well_formed n s F) as K;
             destruct (delete_where n s); exact K
         | |- context [if ?b then _ else _] => destruct b
         | |- context [match ?x with _ => _ end] => destruct x
         end;
    exact F.
Qed.

(** The empty table is well formed and every request keeps the table
    so: the well-formed stores are the ones requests can reach. *)
Lemma empty_well_formed (size : nat) :
  well_formed {| todos := []; next_id := 1; in_use := 0; pool_size := size |}.
Proof. constructor. Qed.

Lemma handler_well_formed (op : Operation) (request : Request) (s : Store) :
  well_formed s -> well_formed (world_after (handler op request) s).
Proof.
  apply (handler_preserves well_formed).
  - intros w F. simpl. unfold acquire.
    destruct (in_use w <? pool_size w)%nat; exact F.
  - intros c text values w F. now apply execute_well_formed.
  - intros c w F. exact F.
Qed.

End PgRuns.

(** ** The claims that involve the store *)

(** C3.  Update.
    On any pool: when the UPDATE statement of a served request resolves
    with no row the reply is 404 with [{ error: "TODO not found" }]; when
    it resolves with rows the reply is 200 with the first of them; that
    statement is the only one sent, so the world is the one the statement
    left, with the client released.
    On the store: when no row of the table has the addressed id the reply
    is that 404 and the store is what it was before the request; when a
    row has it the reply is 200 with the row carrying that id and the
    title and flag of the request. *)
Theorem update_not_found_or_updated :
  (forall (W : Type) (P : Pool W) (request : Request) (w w1 w2 : W)
          (title completed : JsVal) (c : Client) (res : QueryResult),
      destructure (body request) "title" = Normal title ->
      destructure (body request) "completed" = Normal completed ->
      connect w = (Normal c, w1) ->
      query c UPDATE (Some [title; completed; VStr (id (params request))]) w1 =
      (Normal res, w2) ->
      (rows res = [] ->
       outcome (put_todos request) w =
       Responded 404 (VObj [("error", VStr "TODO not found")])) /\
      (forall r rest, rows res = r :: rest ->
                      outcome (put_todos request) w = Responded 200 r) /\
      statements (trace (put_todos request) w) =
      [(UPDATE, Some [title; completed; VStr (id (params request))])] /\
      world_after (put_todos request) w = release c w2) /\
  (forall (s : Pg.Store) (request : Request) (title : string)
          (completed : bool) (n : Z),
      destructure (body request) "title" = Normal (VStr title) ->
      destructure (body request) "completed" = Normal (VBool completed) ->
      Pg.integer (id (params request)) = Some n ->
      Pg.available s ->
      (Forall (fun t => Pg.todo_id t <> n) (Pg.todos s) ->
       outcome (put_todos request) s =
       Responded 404 (VObj [("error", VStr "TODO not found")]) /\
       world_after (put_todos request) s = s) /\
      (Exists (fun t => Pg.todo_id t = n) (Pg.todos s) ->
       outcome (put_todos request) s =
       Responded 200 (Pg.row (Pg.MkTodo n title completed)))).
Proof.
  split.
  - intros W P request w w1 w2 title completed c res T D C Q.
    destruct (update_served request w w1 w2 title completed c res T D C Q)
      as (O & L & V).
    repeat split.
    + intros E. now rewrite O, E.
    + intros r rest E. now rewrite O, E.
    + now rewrite L.
    + exact V.
  - intros s request title completed n T D I A.
    destruct (PgRuns.update_on_store request title completed n s T D I A)
      as (O & V).
    split.
    + intros Miss.
      destruct (PgFacts.update_misses n title completed _ Miss) as (Em & Ef).
      rewrite O, V, Em, Ef. split; [reflexivity |].
      apply PgFacts.with_table_same.
    + intros Hit.
      destruct (PgFacts.update_hits n title completed _ Hit) as (rest & E).
      now rewrite O, E.
Qed.

(** C5.  List.
    On any pool: when the SELECT of a served request resolves, the reply
    is 200 and its payload is the array of the rows the statement gave, as
    given; no rows give the empty array.
    On the store, in every state with a free connection: the reply is 200
    and its payload holds the rows of the table, all of them and no other
    (a permutation of the table), in ascending order of [id]; an empty
    table gives the empty array. *)
Theorem list_returns_all_rows_ascending :
  (forall (W : Type) (P : Pool W) (w w1 w2 : W) (c : Client)
          (res : QueryResult),
      connect w = (Normal c, w1) ->
      query c SELECT None w1 = (Normal res, w2) ->
      outcome get_todos w = Responded 200 (VArr (rows res)) /\
      (rows res = [] -> outcome get_todos w = Responded 200 (VArr []))) /\
  (forall s : Pg.Store,
      Pg.available s ->
      exists found : list Pg.Todo,
        outcome get_todos s = Responded 200 (VArr (map Pg.row found)) /\
        Permutation found (Pg.todos s) /\
        Pg.ascending found /\
        (Pg.todos s = [] -> outcome get_todos s = Responded 200 (VArr []))).
Proof.
  split.
  - intros W P w w1 w2 c res C Q.
    destruct (list_served w w1 w2 c res C Q) as (O & _).
    split; [exact O |]. intros E. now rewrite O, E.
  - intros s A. exists (Pg.order_by_id (Pg.todos s)).
    destruct (PgRuns.list_on_store s A) as (O & _).
    split; [exact O |].
    split; [apply PgFacts.order_by_id_perm |].
    split; [apply PgFacts.order_by_id_ascending |].
    intros E. now rewrite O, E.
Qed.

(** C8.  Create then List, on the store.  In every well-formed store
    state with a free connection and for every title [T]: Create replies
    201 with the row that has the id the store assigned, the title [T] and
    [completed] false, whatever else the body carries; List, run on the
    store Create left, replies 200 with an array in which that row occurs
    at exactly one position. *)
Theorem create_then_list (s : Pg.Store) (request : Request) (T : string) :
  destructure (body request) "title" = Normal (VStr T) ->
  Pg.available s ->
  Pg.well_formed s ->
  exists (created : JsVal) (found : list JsVal),
    created = Pg.row (Pg.MkTodo (Pg.next_id s) T false) /\
    outcome (post_todos request) s = Responded 201 created /\
    outcome get_todos (world_after (post_todos request) s) =
    Responded 200 (VArr found) /\
    exactly_once created found.
Proof.
  intros B A F.
  destruct (PgRuns.create_on_store request T s B A) as (O & V).
  set (t := Pg.MkTodo (Pg.next_id s) T false) in *.
  exists (Pg.row t), (map Pg.row (Pg.order_by_id (Pg.todos s ++ [t]))).
  split; [reflexivity |]. split; [exact O |]. rewrite V.
  split.
  - apply PgRuns.list_on_store. exact A.
  - apply PgFacts.exactly_once_row.
    apply PgFacts.exactly_once_fresh with (l := Pg.todos s).
    + intros I. unfold Pg.well_formed in F.
      rewrite Forall_forall in F. specialize (F t I). simpl in F. lia.
    + apply PgFacts.order_by_id_perm.
Qed.

(** C10.  List is read-only.
    On any pool: a served List request sends exactly one statement, the
    SELECT, without parameters, and leaves the world as that statement
    left it, with the client released.
    On the store: the store after a List request is the store before it,
    whether a connection was free or not. *)
Theorem list_is_read_only :
  (forall (W : Type) (P : Pool W) (w w1 : W) (c : Client),
      connect w = (Normal c, w1) ->
      statements (trace get_todos w) = [(SELECT, None)] /\
      world_after get_todos w = release c (snd (query c SELECT None w1))) /\
  (forall s : Pg.Store, world_after get_todos s = s).
Proof.
  split.
  - intros W P w w1 c C. unfold trace, world_after.
    rewrite run_get_todos, C, served_calls, served_world. auto.
  - apply PgRuns.list_keeps_store.
Qed.

(** ** Concrete runs *)

Module SampleRuns.

Import Samples.

Example list_sorted :
  outcome get_todos store =
  Responded 200
    (VArr [Pg.row (Pg.MkTodo 1 "Learn TypeScript" true);
           Pg.row (Pg.MkTodo 2 "Build REST API" false)]).
Proof. reflexivity. Qed.

Example create_on_mock :
  outcome (post_todos create)
          (Mock.resolving {| rows := [newTodo]; rowCount := VUndefined |}) =
  Responded 201 newTodo.
Proof. reflexivity. Qed.

Example connect_refused :
  run get_todos (Mock.unreachable queryFailed) =
  (Throw queryFailed,
   {| world := Mock.unreachable queryFailed;
      calls := [CConnect (Throw queryFailed)];
      statusCode := 200 |}).
Proof. reflexivity. Qed.

(** The scenario of the spec: create, update, delete, list. *)
Example crud_flow :
  let posted := post_todos (MkRequest (MkParams "") (buyMilk true)) in
  let s1 := world_after posted empty in
  let put := put_todos (MkRequest (MkParams "1") (buyMilk true)) in
  let s2 := world_after put s1 in
  let deleted := delete_todos (MkRequest (MkParams "1") VUndefined) in
  let s3 := world_after deleted s2 in
  outcome posted empty =
  Responded 201 (Pg.row (Pg.MkTodo 1 "Buy milk" false)) /\
  outcome put s1 = Responded 200 (Pg.row (Pg.MkTodo 1 "Buy milk" true)) /\
  outcome deleted s2 = Responded 204 (VStr "") /\
  outcome get_todos s3 = Responded 200 (VArr []) /\
  outcome deleted s3 =
  Responded 404 (VObj [("error", VStr "TODO not found")]).
Proof. repeat split. Qed.

Example body_missing :
  trace (post_todos (MkRequest (MkParams "") VUndefined)) store = [].
Proof. reflexivity. Qed.

End SampleRuns.


(** ** The theorems at concrete requests *)

(** C1 at [GET /todos] on a client whose statement is rejected. *)
Lemma release_exactly_once_witness :
  In (CConnect (Normal Mock.mockClient))
     (trace (handler OpList Samples.delete)
            (Mock.rejecting Samples.queryFailed)) /\
  releases (trace (handler OpList Samples.delete)
                  (Mock.rejecting Samples.queryFailed)) =
  [Mock.mockClient].
Proof.
  split.
  - left. reflexivity.
  - apply (release_exactly_once OpList Samples.delete
             (Mock.rejecting Samples.queryFailed) Mock.mockClient).
    left. reflexivity.
Defined.

(** C2 at a body that carries [completed: true]. *)
Lemma create_inserts_uncompleted_witness :
  statements
    (trace (post_todos Samples.create)
           (Mock.resolving {| rows := [Samples.newTodo];
                              rowCount := VUndefined |})) =
  [(INSERT, Some [VStr "New todo"; VBool false])] /\
  outcome (post_todos Samples.create)
          (Mock.resolving {| rows := [Samples.newTodo];
                             rowCount := VUndefined |}) =
  Responded 201 Samples.newTodo.
Proof.
  destruct (@create_inserts_uncompleted Mock.World Mock.pool Samples.create
              (Mock.resolving {| rows := [Samples.newTodo];
                                 rowCount := VUndefined |})
              (Mock.resolving {| rows := [Samples.newTodo];
                                 rowCount := VUndefined |})
              (Mock.resolving {| rows := [Samples.newTodo];
                                 rowCount := VUndefined |})
              (VStr "New todo") Mock.mockClient
              {| rows := [Samples.newTodo]; rowCount := VUndefined |}
              ltac:(reflexivity) ltac:(reflexivity) ltac:(reflexivity))
    as (L & O & _).
  split; [rewrite L; reflexivity | exact O].
Defined.

(** C3 at [PUT /todos/999] on the sample store, which has no such row. *)
Lemma update_not_found_or_updated_witness :
  outcome (put_todos Samples.update) Samples.store =
  Responded 404 (VObj [("error", VStr "TODO not found")]) /\
  world_after (put_todos Samples.update) Samples.store = Samples.store.
Proof.
  apply (proj2 update_not_found_or_updated Samples.store Samples.update
               "Updated todo" true 999
               ltac:(reflexivity) ltac:(reflexivity) ltac:(reflexivity)).
  - unfold Pg.available. simpl. apply Nat.lt_0_succ.
  - repeat constructor; discriminate.
Defined.

(** C4 at [DELETE /todos/999] on a client reporting no affected row. *)
Lemma delete_replies_witness :
  outcome (delete_todos Samples.delete)
          (Mock.resolving {| rows := []; rowCount := VNum 0 |}) =
  Responded 404 (VObj [("error", VStr "TODO not found")]).
Proof.
  destruct (@delete_replies Mock.World Mock.pool Samples.delete
              (Mock.resolving {| rows := []; rowCount := VNum 0 |})
              (Mock.resolving {| rows := []; rowCount := VNum 0 |})
              (Mock.resolving {| rows := []; rowCount := VNum 0 |})
              Mock.mockClient {| rows := []; rowCount := VNum 0 |}
              ltac:(reflexivity) ltac:(reflexivity))
    as (Z & _).
  apply Z. reflexivity.
Defined.

(** C5 at the sample store, whose table is stored out of order. *)
Lemma list_returns_all_rows_ascending_witness :
  exists found : list Pg.Todo,
    outcome get_todos Samples.store = Responded 200 (VArr (map Pg.row found)) /\
    Permutation found (Pg.todos Samples.store) /\
    Pg.ascending found /\
    (Pg.todos Samples.store = [] ->
     outcome get_todos Samples.store = Responded 200 (VArr [])).
Proof.
  apply (proj2 list_returns_all_rows_ascending Samples.store).
  unfold Pg.available. simpl. apply Nat.lt_0_succ.
Defined.

(** C6 at [GET /todos] on a client whose statement is rejected. *)
Lemma failure_propagates_witness :
  outcome (handler OpList Samples.delete) (Mock.rejecting Samples.queryFailed) =
  Propagated Samples.queryFailed /\
  releases (trace (handler OpList Samples.delete)
                  (Mock.rejecting Samples.queryFailed)) =
  [Mock.mockClient].
Proof.
  destruct (failure_propagates OpList Samples.delete
              (Mock.rejecting Samples.queryFailed) Samples.queryFailed)
    as (O & R & _).
  - apply Exists_cons_tl, Exists_cons_hd. reflexivity.
  - split; [exact O | exact R].
Defined.

(** C7 at [DELETE /todos/999] and [PUT /todos/999]. *)
Lemma id_passed_verbatim_witness :
  statements (trace (delete_todos Samples.delete) Samples.store) =
  [(DELETE, Some [VStr "999"])] /\
  statements (trace (put_todos Samples.update) Samples.store) =
  [(UPDATE, Some [VStr "Updated todo"; VBool true; VStr "999"])].
Proof.
  destruct (@id_passed_verbatim Pg.Store Pg.pool Samples.update Samples.store
              (Pg.lease Samples.store) 0%nat ltac:(reflexivity))
    as (_ & U).
  destruct (@id_passed_verbatim Pg.Store Pg.pool Samples.delete Samples.store
              (Pg.lease Samples.store) 0%nat ltac:(reflexivity))
    as (D & _).
  split; [exact D |].
  apply (U (VStr "Updated todo") (VBool true)); reflexivity.
Defined.

(** C8 at the sample store. *)
Lemma create_then_list_witness :
  exists (created : JsVal) (found : list JsVal),
    created = Pg.row (Pg.MkTodo 3 "New todo" false) /\
    outcome (post_todos Samples.create) Samples.store =
    Responded 201 created /\
    outcome get_todos (world_after (post_todos Samples.create) Samples.store) =
    Responded 200 (VArr found) /\
    exactly_once created found.
Proof.
  apply (create_then_list Samples.store Samples.create "New todo").
  - reflexivity.
  - unfold Pg.available. simpl. apply Nat.lt_0_succ.
  - unfold Pg.well_formed. simpl. repeat constructor.
Defined.

(** C9 at a client reporting [null] as its count. *)
Lemma delete_404_only_on_zero_witness :
  outcome (delete_todos Samples.delete)
          (Mock.resolving {| rows := []; rowCount := VNull |}) =
  Responded 204 (VStr "").
Proof.
  destruct (@delete_404_only_on_zero Mock.World Mock.pool Samples.delete
              (Mock.resolving {| rows := []; rowCount := VNull |})
              (Mock.resolving {| rows := []; rowCount := VNull |})
              (Mock.resolving {| rows := []; rowCount := VNull |})
              Mock.mockClient {| rows := []; rowCount := VNull |}
              ltac:(reflexivity) ltac:(reflexivity))
    as (_ & _ & N).
  apply N. left. reflexivity.
Defined.

(** C10 at the sample store. *)
Lemma list_is_read_only_witness :
  statements (trace get_todos Samples.store) = [(SELECT, None)] /\
  world_after get_todos Samples.store = Samples.store.
Proof.
  split.
  - apply (proj1 list_is_read_only Pg.Store Pg.pool Samples.store
                 (Pg.lease Samples.store) 0%nat). reflexivity.
  - apply (proj2 list_is_read_only Samples.store).
Defined.

(** ** Further properties of the handlers *)

Section MoreRuns.

Context {W : Type} {P : Pool W}.

Lemma destructure_field (k : string) (v : JsVal) :
  v <> VUndefined -> v <> VNull -> destructure v k = Normal (field k v).
Proof.
  intros U N. unfold field. destruct v; try reflexivity; contradiction.
Qed.

Lemma lookup_missing (k : string) (fields : list (string * JsVal)) :
  ~ In k (map fst fields) -> lookup k fields = VUndefined.
Proof.
  induction fields as [| [k' v] fields IH]; simpl; intros N; [reflexivity |].
  destruct (String.eqb_spec k k') as [E | _].
  - elim N. left. now symmetry.
  - apply IH. intros I. apply N. now right.
Qed.

Lemma lacks_destructure (k : string) (v : JsVal) :
  lacks k v -> destructure v k = Normal VUndefined.
Proof.
  destruct v; simpl; intros L; try reflexivity; try contradiction.
  now rewrite lookup_missing.
Qed.

(** Every run whose body can be read, in closed form. *)
Lemma run_readable (op : Operation) (request : Request) (w : W) :
  readable op request ->
  run (handler op request) w =
  match connect w with
  | (Normal c, w1) =>
      served c (sql op) (parameters op request) (reply_of op) w1
  | (Throw e, w1) => refused e w1
  end.
Proof.
  destruct op; simpl; intros R.
  - apply run_get_todos.
  - destruct R as (U & N).
    rewrite run_post_todos, (destructure_field "title" _ U N). reflexivity.
  - destruct R as (U & N).
    rewrite run_put_todos, (destructure_field "title" _ U N),
      (destructure_field "completed" _ U N). reflexivity.
  - apply run_delete_todos.
Qed.

(** X1.  Create and Update on a request whose body is [undefined] or
    [null]: destructuring throws a [TypeError] before the pool is asked
    for a client, so no call is made on pool or client, the world is
    untouched and the [TypeError] leaves the handler. *)
Theorem body_absent_stops_before_pool (op : Operation) (request : Request)
        (w : W) :
  op = OpCreate \/ op = OpUpdate ->
  body request = VUndefined \/ body request = VNull ->
  trace (handler op request) w = [] /\
  world_after (handler op request) w = w /\
  exists message,
    outcome (handler op request) w = Propagated (TypeError message).
Proof.
  unfold trace, world_after, outcome.
  intros [-> | ->] [B | B]; simpl handler;
    rewrite ?run_post_todos, ?run_put_todos, B; simpl; eauto.
Qed.

(** X2.  No validation of the body: on a served request, a Create whose
    body has no [title] sends the INSERT with [undefined] as the title
    (and [false]); an Update whose body has neither [title] nor
    [completed] sends the UPDATE with [undefined] for both, followed by
    the id. *)
Theorem missing_fields_forwarded (request : Request) (w w1 : W) (c : Client) :
  connect w = (Normal c, w1) ->
  lacks "title" (body request) ->
  statements (trace (post_todos request) w) =
  [(INSERT, Some [VUndefined; VBool false])] /\
  (lacks "completed" (body request) ->
   statements (trace (put_todos request) w) =
   [(UPDATE, Some [VUndefined; VUndefined; VStr (id (params request))])]).
Proof.
  intros C T. unfold trace. split.
  - rewrite run_post_todos, (lacks_destructure _ _ T), C, served_calls.
    reflexivity.
  - intros D.
    rewrite run_put_todos, (lacks_destructure _ _ T),
      (lacks_destructure _ _ D), C, served_calls.
    reflexivity.
Qed.


(** X4.  The calls of a request, whatever the request and the world:
    none at all, or one refused acquisition, or an acquisition, one
    statement on the acquired client and the release of that client.
    The statement text is the fixed text of the operation: request data
    travels in the parameters only. *)
Theorem calls_of_a_request (op : Operation) (request : Request) (w : W) :
  trace (handler op request) w = [] \/
  (exists e, trace (handler op request) w = [CConnect (Throw e)]) \/
  exists c values result,
    trace (handler op request) w =
    [CConnect (Normal c); CQuery c (sql op) values result; CRelease c].
Proof.
  unfold trace. destruct op; simpl handler.
  - rewrite run_get_todos. destruct (connect w) as [[c | e] w1].
    + rewrite served_calls. right. right. do 3 eexists. reflexivity.
    + right. left. eexists. reflexivity.
  - rewrite run_post_todos.
    destruct (destructure (body request) "title") as [title | e];
      [| now left].
    destruct (connect w) as [[c | e] w1].
    + rewrite served_calls. right. right. do 3 eexists. reflexivity.
    + right. left. eexists. reflexivity.
  - rewrite run_put_todos.
    destruct (destructure (body request) "title") as [title | e];
      [| now left].
    destruct (destructure (body request) "completed") as [completed | e];
      [| now left].
    destruct (connect w) as [[c | e] w1].
    + rewrite served_calls. right. right. do 3 eexists. reflexivity.
    + right. left. eexists. reflexivity.
  - rewrite run_delete_todos. destruct (connect w) as [[c | e] w1].
    + rewrite served_calls. right. right. do 3 eexists. reflexivity.
    + right. left. eexists. reflexivity.
Qed.


End MoreRuns.

(** ** The handlers on the mock client *)

Module MockRuns.

Import Mock.

Lemma mock_query_keeps (c : Client) (text : string)
      (values : option (list JsVal)) (w : World) :
  release_calls (snd (query c text values w)) = release_calls w /\
  connect_impl (snd (query c text values w)) = connect_impl w /\
  query_impl (snd (query c text values w)) = query_impl w.
Proof.
  simpl. unfold mock_query. destruct (query_once w); simpl; auto.
Qed.

(** One readable request on a mock client with an answer queued. *)
Lemma mock_step (op : Operation) (request : Request) (w : World)
      (c : Client) (res : QueryResult) (rest : list (Completion QueryResult)) :
  connect_impl w = Normal c ->
  query_once w = Normal res :: rest ->
  readable op request ->
  outcome (handler op request) w = responded op res /\
  world_after (handler op request) w =
  {| connect_impl := Normal c; query_once := rest;
     query_impl := query_impl w; release_calls := S (release_calls w) |}.
Proof.
  intros C Q R.
  destruct (outcome_served (handler op request) w w
              {| connect_impl := connect_impl w; query_once := rest;
                 query_impl := query_impl w;
                 release_calls := release_calls w |}
              c (sql op) (parameters op request) (reply_of op) res)
    as (O & _ & V).
  - rewrite (run_readable op request w R). simpl. unfold mock_connect.
    rewrite C. reflexivity.
  - simpl. unfold mock_query. rewrite Q. reflexivity.
  - split; [exact O |]. rewrite V. simpl. unfold mock_release. simpl.
    now rewrite C.
Qed.

(** X5.  On the mock client of the test helpers, for every operation,
    request and script: the call count of [release] grows by the number
    of clients the request acquired (none or one), and after a readable
    request on a pool that resolves, [assertClientCleanup] passes. *)
Theorem mock_release_counted (op : Operation) (request : Request) (w : World) :
  release_calls (world_after (handler op request) w) =
  (release_calls w +
   List.length (acquired (trace (handler op request) w)))%nat /\
  forall c, connect_impl w = Normal c ->
            readable op request ->
            assertClientCleanup (world_after (handler op request) w) = true.
Proof.
  split.
  - unfold world_after, trace.
    destruct (handler_shape op request w) as [e E | e w1 C E | c w1 t v rp C E];
      rewrite E.
    + simpl. now rewrite Nat.add_0_r.
    + simpl in *. unfold mock_connect in C. injection C as _ <-.
      now rewrite Nat.add_0_r.
    + rewrite served_world, served_calls. simpl in C.
      unfold mock_connect in C. injection C as _ <-.
      destruct (mock_query_keeps c t v w) as (K & _).
      change (release_calls (release c (snd (query c t v w))))
        with (S (release_calls (snd (query c t v w)))).
      rewrite K. simpl. now rewrite Nat.add_1_r.
  - intros c C R. unfold world_after.
    rewrite (run_readable op request w R). simpl connect.
    unfold mock_connect. rewrite C, served_world.
    reflexivity.
Qed.

(** X6.  Requests served one after another on the mock client, all
    readable, with as many answers queued as there are requests: the
    i-th request gets the reply its handler makes of the i-th queued
    answer, the answers are used up in queue order and what was queued
    behind them stays queued, and [release] has been called once per
    request. *)
Theorem mock_answers_in_order (requests : list (Operation * Request))
        (results : list QueryResult) (rest : list (Completion QueryResult))
        (w : World) (c : Client) :
  connect_impl w = Normal c ->
  Forall (fun r => readable (fst r) (snd r)) requests ->
  List.length results = List.length requests ->
  query_once w = (map Normal results ++ rest)%list ->
  fst (serve requests w) =
  map (fun r => responded (fst (fst r)) (snd r)) (combine requests results) /\
  snd (serve requests w) =
  {| connect_impl := Normal c; query_once := rest;
     query_impl := query_impl w;
     release_calls := (release_calls w + List.length requests)%nat |}.
Proof.
  intros C R. revert results w C.
  induction R as [| [op request] more Rd _ IH]; intros results w C L Q.
  - destruct results; [| discriminate]. simpl in *.
    split; [reflexivity |]. destruct w; simpl in *. subst.
    now rewrite Nat.add_0_r.
  - destruct results as [| res results]; [discriminate |].
    simpl in L, Q, Rd. injection L as L.
    destruct (mock_step op request w c res _ C Q Rd) as (O & V).
    simpl serve. rewrite V.
    specialize (IH results
                   {| connect_impl := Normal c;
                      query_once := (map Normal results ++ rest)%list;
                      query_impl := query_impl w;
                      release_calls := S (release_calls w) |}
                   eq_refl L eq_refl).
    destruct (serve more _) as [os w']. simpl in *.
    destruct IH as (IHo & IHw). split.
    + now rewrite O, IHo.
    + rewrite IHw. f_equal. lia.
Qed.

(** X7.  Each handler reads one field of the result: the outcome of
    List, Create and Update does not depend on [rowCount], and the
    outcome of Delete does not depend on [rows]. *)
Theorem reply_reads_one_field (op : Operation) (request : Request)
        (found found' : list JsVal) (count count' : JsVal) :
  (op = OpDelete -> count = count') ->
  (op <> OpDelete -> found = found') ->
  outcome (handler op request)
          (resolving {| rows := found; rowCount := count |}) =
  outcome (handler op request)
          (resolving {| rows := found'; rowCount := count' |}).
Proof.
  intros D N. unfold outcome.
  destruct op; simpl handler;
    try (rewrite <- (N ltac:(discriminate)));
    try (rewrite <- (D eq_refl)).
  - rewrite !run_get_todos. reflexivity.
  - rewrite !run_post_todos.
    destruct (destructure (body request) "title"); reflexivity.
  - rewrite !run_put_todos.
    destruct (destructure (body request) "title"); [| reflexivity].
    destruct (destructure (body request) "completed"); [| reflexivity].
    simpl. unfold served. simpl. unfold update_reply. simpl.
    destruct found; reflexivity.
  - rewrite !run_delete_todos. simpl. unfold served. simpl.
    unfold delete_reply. simpl.
    destruct (strict_eq_number count 0); reflexivity.
Qed.

End MockRuns.

Module MockDefault.

Import Mock.

(** One readable request on a mock client with nothing queued. *)
Lemma default_step (op : Operation) (request : Request) (w : World)
      (c : Client) :
  connect_impl w = Normal c ->
  query_once w = [] ->
  readable op request ->
  outcome (handler op request) w =
  match query_impl w with
  | Normal res => responded op res
  | Throw e => Propagated e
  end /\
  world_after (handler op request) w =
  {| connect_impl := Normal c; query_once := [];
     query_impl := query_impl w; release_calls := S (release_calls w) |}.
Proof.
  intros C Q R. unfold outcome, world_after.
  rewrite (run_readable op request w R). simpl connect.
  unfold mock_connect. rewrite C. unfold served. simpl query.
  unfold mock_query. rewrite Q.
  destruct (query_impl w) as [res | e] eqn:I; simpl;
    unfold mock_release; simpl; rewrite C, Q, I; auto.
Qed.

(** X9.  Requests served one after another on the mock client, all
    readable, with nothing queued: every request is answered from the
    value set with [mockResolvedValue] or [mockRejectedValue], which
    stays in place; a resolved value gives each handler's reply of it, a
    rejected one leaves each handler as the error itself; [release] has
    been called once per request either way. *)
Theorem mock_default_answers_all (requests : list (Operation * Request))
        (w : World) (c : Client) :
  connect_impl w = Normal c ->
  query_once w = [] ->
  Forall (fun r => readable (fst r) (snd r)) requests ->
  fst (serve requests w) =
  map (fun r => match query_impl w with
                | Normal res => responded (fst r) res
                | Throw e => Propagated e
                end) requests /\
  snd (serve requests w) =
  {| connect_impl := Normal c; query_once := [];
     query_impl := query_impl w;
     release_calls := (release_calls w + List.length requests)%nat |}.
Proof.
  intros C Q R. revert w C Q.
  induction R as [| [op request] more Rd _ IH]; intros w C Q.
  - simpl. split; [reflexivity |]. destruct w; simpl in *. subst.
    now rewrite Nat.add_0_r.
  - simpl in Rd. destruct (default_step op request w c C Q Rd) as (O & V).
    simpl serve. rewrite V.
    specialize (IH {| connect_impl := Normal c; query_once := [];
                      query_impl := query_impl w;
                      release_calls := S (release_calls w) |}
                   eq_refl eq_refl).
    destruct (serve more _) as [os w']. simpl in *.
    destruct IH as (IHo & IHw). split.
    + now rewrite O, IHo.
    + rewrite IHw. f_equal. lia.
Qed.

End MockDefault.

(** ** The further properties at concrete requests *)

(** X1 at a [POST /todos] without body. *)
Lemma body_absent_stops_before_pool_witness :
  trace (handler OpCreate Samples.bodiless) Samples.scripted = [] /\
  world_after (handler OpCreate Samples.bodiless) Samples.scripted =
  Samples.scripted.
Proof.
  destruct (@body_absent_stops_before_pool Mock.World Mock.pool
              OpCreate Samples.bodiless Samples.scripted
              (or_introl eq_refl) (or_introl eq_refl)) as (T & V & _).
  split; [exact T | exact V].
Defined.

(** X2 at a [POST /todos] and a [PUT /todos/1] with the payload [{}]. *)
Lemma missing_fields_forwarded_witness :
  statements (trace (post_todos Samples.untitled) Samples.scripted) =
  [(INSERT, Some [VUndefined; VBool false])] /\
  statements (trace (put_todos Samples.untitled) Samples.scripted) =
  [(UPDATE, Some [VUndefined; VUndefined; VStr "1"])].
Proof.
  destruct (@missing_fields_forwarded Mock.World Mock.pool
              Samples.untitled Samples.scripted Samples.scripted
              Mock.mockClient ltac:(reflexivity)
              ltac:(simpl; intros [])) as (C & U).
  split; [exact C |]. apply U. simpl. intros [].
Defined.


(** X5 at [GET /todos] on a client whose statement is rejected. *)
Lemma mock_release_counted_witness :
  Mock.assertClientCleanup
    (world_after (handler OpList Samples.bodiless)
                 (Mock.rejecting Samples.queryFailed)) = true.
Proof.
  apply (proj2 (MockRuns.mock_release_counted OpList Samples.bodiless
                  (Mock.rejecting Samples.queryFailed))
               Mock.mockClient).
  - reflexivity.
  - exact I.
Defined.

(** X6 at the POST and the GET of the CRUD flow test. *)
Lemma mock_answers_in_order_witness :
  fst (serve Samples.flow Samples.scripted) =
  [Responded 201 Samples.learnBun; Responded 200 (VArr [Samples.learnBun])] /\
  Mock.release_calls (snd (serve Samples.flow Samples.scripted)) = 2%nat.
Proof.
  destruct (MockRuns.mock_answers_in_order Samples.flow
              [{| rows := [Samples.learnBun]; rowCount := VUndefined |};
               {| rows := [Samples.learnBun]; rowCount := VUndefined |}]
              [] Samples.scripted Mock.mockClient) as (O & V).
  - reflexivity.
  - repeat constructor; simpl; discriminate.
  - reflexivity.
  - reflexivity.
  - split; [rewrite O | rewrite V]; reflexivity.
Defined.

(** X7 at [PUT /todos/999]: a count of 0 beside a returned row. *)
Lemma reply_reads_one_field_witness :
  outcome (handler OpUpdate Samples.update)
          (Mock.resolving {| rows := [Samples.newTodo]; rowCount := VNum 0 |}) =
  outcome (handler OpUpdate Samples.update)
          (Mock.resolving {| rows := [Samples.newTodo]; rowCount := VNum 1 |}).
Proof.
  apply (MockRuns.reply_reads_one_field OpUpdate Samples.update).
  - discriminate.
  - reflexivity.
Defined.


(** X9 at two requests on a client whose statements are rejected. *)
Lemma mock_default_answers_all_witness :
  fst (serve Samples.flow (Mock.rejecting Samples.queryFailed)) =
  [Propagated Samples.queryFailed; Propagated Samples.queryFailed] /\
  Mock.release_calls
    (snd (serve Samples.flow (Mock.rejecting Samples.queryFailed))) = 2%nat.
Proof.
  destruct (MockDefault.mock_default_answers_all Samples.flow
              (Mock.rejecting Samples.queryFailed) Mock.mockClient)
    as (O & V).
  - reflexivity.
  - reflexivity.
  - repeat constructor; simpl; discriminate.
  - split; [rewrite O | rewrite V]; reflexivity.
Defined.
